(** * PynamoDB exceptions ([pynamodb/exceptions.py])

    A shallow embedding of the exception taxonomy of PynamoDB and of the
    small amount of Python it runs on: dynamically typed values, attribute
    and dictionary lookup that may raise, [str.format], and the class
    hierarchy that decides which handler catches which exception. *)

From Stdlib Require Import Ascii String.
From stdpp Require Import base gmap strings list fin_maps pretty.

Local Open Scope string_scope.
Set Warnings "-register-all".

(** ** Python values *)

(** The values an exception may meet as [cause], as [response] or as a
    dictionary entry. Dictionaries are keyed by strings, as the response
    shape of the SDK is. An object is given by the attributes that
    [getattr] resolves on it (instance and class attributes alike); none of
    them is callable. *)
Inductive value : Type :=
  | VNone
  | VBool (b : bool)
  | VInt (z : Z)
  | VStr (s : string)
  | VList (l : list value)
  | VDict (d : gmap string value)
  | VObj (attrs : gmap string value).

(** The built-in exceptions the module can raise while it is evaluated. *)
Inductive pyexn : Type :=
  | AttributeError
  | TypeError
  | ValueError
  | KeyError
  | IndexError.

(** A computation either returns or raises. *)
Inductive result (A : Type) : Type :=
  | Ok (a : A)
  | Raise (e : pyexn).
Arguments Ok {A} a.
Arguments Raise {A} e.

(** Sequencing: the first exception raised ends the computation. With these
    instances stdpp's [x ← r; k] reads as a Python statement sequence. *)
#[global] Instance result_ret : MRet result := fun A a => Ok a.
#[global] Instance result_bind : MBind result := fun A B k r =>
  match r with
  | Ok a => k a
  | Raise e => Raise e
  end.

Definition is_ok {A : Type} (r : result A) : bool :=
  match r with Ok _ => true | Raise _ => false end.

(** [getattr(o, name, default)]: only objects carry the attributes looked up
    here; on every other value the default is returned. *)
Definition py_getattr_default (o : value) (name : string) (dflt : value) : value :=
  match o with
  | VObj attrs => default dflt (attrs !! name)
  | _ => dflt
  end.

(** [o.get(key, default)]: the method exists on dictionaries. On an object the
    attribute [get] is looked up first; it is missing (AttributeError) or a
    plain value that cannot be called (TypeError). Mapping-like objects that
    bring a [get] method of their own are not among the values modelled; the
    properties below speak of dictionaries and of values without [get]. *)
Definition py_get (o : value) (key : string) (dflt : value) : result value :=
  match o with
  | VDict d => Ok (default dflt (d !! key))
  | VObj attrs =>
      match attrs !! "get" with
      | Some _ => Raise TypeError
      | None => Raise AttributeError
      end
  | _ => Raise AttributeError
  end.

(** Truth value of a value, as [not x] and [if x] take it. *)
Definition py_truthy (v : value) : bool :=
  match v with
  | VNone => false
  | VBool b => b
  | VInt z => negb (z =? 0)%Z
  | VStr s => negb (String.eqb s EmptyString)
  | VList l => match l with [] => false | _ => true end
  | VDict d => match map_to_list d with [] => false | _ => true end
  | VObj _ => true
  end.

(** ** [str.format] *)

(** The part of the format mini-language the module's templates use: literal
    text, the escapes [{{] and [}}], auto-numbered fields [{}] and named
    fields [{name}]. The arguments are given by their string form
    ([format(v, '')]). The template is read left to right; [field] holds the
    name read so far while inside a replacement field, [auto] the index of
    the next auto-numbered field. Fields with a conversion, a format
    specification, an attribute or index access or a number are outside this
    part; the properties below insert brace-free text or identifiers only. *)
Fixpoint format_from (s : string) (field : option string) (auto : nat)
    (args : list string) (kwargs : gmap string string) : result string :=
  match s with
  | EmptyString =>
      match field with
      | None => Ok EmptyString
      | Some _ => Raise ValueError
      end
  | String c r =>
      match field with
      | Some name =>
          if Ascii.eqb c "}" then
            match name with
            | EmptyString =>
                match args !! auto with
                | Some v => rest ← format_from r None (S auto) args kwargs; Ok (v ++ rest)
                | None => Raise IndexError
                end
            | _ =>
                match kwargs !! name with
                | Some v => rest ← format_from r None auto args kwargs; Ok (v ++ rest)
                | None => Raise KeyError
                end
            end
          else format_from r (Some (name ++ String c EmptyString)) auto args kwargs
      | None =>
          if Ascii.eqb c "{" then
            match r with
            | String c' r' =>
                if Ascii.eqb c' "{"
                then rest ← format_from r' None auto args kwargs; Ok (String "{" rest)
                else format_from r (Some EmptyString) auto args kwargs
            | EmptyString => Raise ValueError
            end
          else if Ascii.eqb c "}" then
            match r with
            | String c' r' =>
                if Ascii.eqb c' "}"
                then rest ← format_from r' None auto args kwargs; Ok (String "}" rest)
                else Raise ValueError
            | EmptyString => Raise ValueError
            end
          else rest ← format_from r None auto args kwargs; Ok (String c rest)
      end
  end.

(** [template.format(...)] with positional and keyword arguments. *)
Definition py_format (template : string) (args : list string)
    (kwargs : gmap string string) : result string :=
  format_from template None 0 args kwargs.

(** ** Classes *)

(** The classes of the module, the built-in exceptions they derive from or
    raise, and the SDK's [ClientError]. *)
Inductive pyclass : Type :=
  | BaseException
  | Exception
  | LookupError
  | ClientError
  | PynamoDBException
  | PynamoDBConnectionError
  | DeleteError
  | QueryError
  | ScanError
  | PutError
  | UpdateError
  | GetError
  | TableError
  | DoesNotExist
  | TableDoesNotExist
  | TransactWriteError
  | TransactGetError
  | InvalidStateError
  | AttributeDeserializationError
  | AttributeNullError
  | VerboseClientError
  | Builtin (e : pyexn).

#[global] Instance pyexn_eq_dec : EqDecision pyexn.
Proof. solve_decision. Defined.
#[global] Instance pyclass_eq_dec : EqDecision pyclass.
Proof. solve_decision. Defined.

(** The class named in the [class C(B)] header; every class here has one
    base, and [BaseException] stands at the top. *)
Definition base (c : pyclass) : option pyclass :=
  match c with
  | BaseException => None
  | Exception => Some BaseException
  | LookupError => Some Exception
  | ClientError => Some Exception
  | PynamoDBException => Some Exception
  | PynamoDBConnectionError => Some PynamoDBException
  | DeleteError | QueryError | ScanError | PutError
  | UpdateError | GetError | TableError => Some PynamoDBConnectionError
  | DoesNotExist | TableDoesNotExist | TransactWriteError
  | TransactGetError | InvalidStateError => Some PynamoDBException
  | AttributeDeserializationError => Some (Builtin TypeError)
  | AttributeNullError => Some (Builtin ValueError)
  | VerboseClientError => Some ClientError
  | Builtin KeyError | Builtin IndexError => Some LookupError
  | Builtin _ => Some Exception
  end.

(** Method resolution order: the class, then its bases in turn. *)
Fixpoint mro_from (fuel : nat) (c : pyclass) : list pyclass :=
  c :: match fuel with
       | O => []
       | S n => match base c with
                | Some b => mro_from n b
                | None => []
                end
       end.

(** No chain of bases in the module is longer than five classes. *)
Definition mro (c : pyclass) : list pyclass := mro_from 4 c.

Definition issubclass (c d : pyclass) : bool := bool_decide (d ∈ mro c).

(** Data attributes assigned in a class body. *)
Definition class_attrs (c : pyclass) : gmap string value :=
  match c with
  | PynamoDBConnectionError => {[ "msg" := VStr "Connection Error" ]}
  | DeleteError => {[ "msg" := VStr "Error deleting item" ]}
  | QueryError => {[ "msg" := VStr "Error performing query" ]}
  | ScanError => {[ "msg" := VStr "Error performing scan" ]}
  | PutError => {[ "msg" := VStr "Error putting item" ]}
  | UpdateError => {[ "msg" := VStr "Error updating item" ]}
  | GetError => {[ "msg" := VStr "Error getting item" ]}
  | TableError => {[ "msg" := VStr "Error performing a table operation" ]}
  | DoesNotExist => {[ "msg" := VStr "Item does not exist" ]}
  | InvalidStateError => {[ "msg" := VStr "Operation in invalid state" ]}
  | _ => ∅
  end.

(** Methods and properties defined in a class body. For the classes of the
    module these are the [def]s of the source; of the built-in and SDK
    classes only the constructor and the string conversion are listed, and
    they define none of the module's own names. *)
Definition class_defs (c : pyclass) : list string :=
  match c with
  | PynamoDBException => ["__init__"; "cause_response_code"; "cause_response_message"]
  | TableDoesNotExist => ["__init__"]
  | AttributeDeserializationError => ["__init__"]
  | AttributeNullError => ["__init__"; "__str__"; "prepend_path"]
  | VerboseClientError => ["__init__"]
  | BaseException => ["__init__"; "__str__"]
  | ClientError => ["__init__"]
  | _ => []
  end.

(** The first class along the MRO whose body defines [name]. *)
Definition defining_class (c : pyclass) (name : string) : option pyclass :=
  head (filter (λ k, name ∈ class_defs k) (mro c)).

Definition class_defines (c : pyclass) (name : string) : bool :=
  bool_decide (is_Some (defining_class c name)).

(** The value of a class-level data attribute, found along the MRO. *)
Definition class_lookup (c : pyclass) (name : string) : option value :=
  head (omap (λ k, class_attrs k !! name) (mro c)).

(** ** Instances *)

(** An exception object: its class, its instance dictionary, and the [args]
    tuple every [BaseException] keeps. *)
Record instance : Type := Instance {
  cls : pyclass;
  attrs : gmap string value;
  args : list value
}.

(** [BaseException.__new__]: a fresh object of class [c] whose [args] are the
    positional arguments of the call. *)
Definition new (c : pyclass) (a : list value) : instance :=
  {| cls := c; attrs := ∅; args := a |}.

(** [self.name = v] *)
Definition setattr (self : instance) (name : string) (v : value) : instance :=
  {| cls := cls self; attrs := <[name := v]> (attrs self); args := args self |}.

(** [self.name] for a data attribute: the instance dictionary first, then the
    class bodies along the MRO. *)
Definition getattr (self : instance) (name : string) : result value :=
  match attrs self !! name with
  | Some v => Ok v
  | None =>
      match class_lookup (cls self) name with
      | Some v => Ok v
      | None => Raise AttributeError
      end
  end.

(** [Exception.__init__(self, a0, ...)] stores its arguments as [args]. *)
Definition Exception_init (self : instance) (a : list value) : instance :=
  {| cls := cls self; attrs := attrs self; args := a |}.

(** [except handler:] catches [e] when [isinstance(e, handler)]. *)
Definition catches (handler : pyclass) (e : instance) : bool :=
  issubclass (cls e) handler.

(** ** [PynamoDBException] *)

(** [PynamoDBException.__init__(self, msg=None, cause=None)]. A message that
    is not given is read back from [self.msg], which at this point can only
    be a class attribute. *)
Definition PynamoDBException_init (self : instance) (msg : option string)
    (cause : value) : result instance :=
  m ← match msg with
      | Some s => Ok (VStr s)
      | None => getattr self "msg"
      end;
  let self := setattr self "msg" m in
  let self := setattr self "cause" cause in
  m' ← getattr self "msg";
  Ok (Exception_init self [m']).

(** The call [C(msg, cause)] for a class [C] that inherits the constructor
    above. The [args] that [__new__] records are replaced by [__init__]. *)
Definition PynamoDBException_call (c : pyclass) (msg : option string)
    (cause : value) : result instance :=
  PynamoDBException_init (new c []) msg cause.

(** The property [cause_response_code]. *)
Definition cause_response_code (self : instance) : result value :=
  cause ← getattr self "cause";
  error ← py_get (py_getattr_default cause "response" (VDict ∅)) "Error" (VDict ∅);
  py_get error "Code" VNone.

(** The property [cause_response_message]. *)
Definition cause_response_message (self : instance) : result value :=
  cause ← getattr self "cause";
  error ← py_get (py_getattr_default cause "response" (VDict ∅)) "Error" (VDict ∅);
  py_get error "Message" VNone.

(** ** [TableDoesNotExist] *)

Definition TableDoesNotExist_init (self : instance) (table_name : string)
    : result instance :=
  msg ← py_format "Table does not exist: `{}`" [table_name] ∅;
  PynamoDBException_init self (Some msg) VNone.

Definition TableDoesNotExist_call (table_name : string) : result instance :=
  TableDoesNotExist_init (new TableDoesNotExist [VStr table_name]) table_name.

(** ** [AttributeDeserializationError] *)

Definition AttributeDeserializationError_init (self : instance)
    (attr_name attr_type : string) : result instance :=
  msg ← py_format "Cannot deserialize '{}' attribute from type: {}"
          [attr_name; attr_type] ∅;
  Ok (Exception_init self [VStr msg]).

Definition AttributeDeserializationError_call (attr_name attr_type : string)
    : result instance :=
  AttributeDeserializationError_init
    (new AttributeDeserializationError [VStr attr_name; VStr attr_type])
    attr_name attr_type.

(** ** [AttributeNullError] *)

(** The constructor does not call its base constructor: [args] stay as
    [__new__] recorded them. *)
Definition AttributeNullError_init (self : instance) (attr_name : string)
    : result instance :=
  Ok (setattr self "attr_path" (VStr attr_name)).

Definition AttributeNullError_call (attr_name : string) : result instance :=
  AttributeNullError_init (new AttributeNullError [VStr attr_name]) attr_name.

(** [self.attr_path = attr_name + '.' + self.attr_path]; [+] on a string and
    anything but a string raises TypeError. *)
Definition prepend_path (self : instance) (attr_name : string)
    : result instance :=
  p ← getattr self "attr_path";
  match p with
  | VStr s => Ok (setattr self "attr_path" (VStr (attr_name ++ "." ++ s)))
  | _ => Raise TypeError
  end.

(** A sequence of [prepend_path] calls on the same object, in order. *)
Fixpoint prepend_paths (self : instance) (names : list string)
    : result instance :=
  match names with
  | [] => Ok self
  | n :: ns => self' ← prepend_path self n; prepend_paths self' ns
  end.

(** ** String forms *)

Section StringForm.

(** The string form of lists, dictionaries and objects, which no function
    of the module inspects. *)
Variable str_of_container : value → string.

(** [str(v)], which is also [format(v, '')]. *)
Definition py_str (v : value) : string :=
  match v with
  | VNone => "None"
  | VBool true => "True"
  | VBool false => "False"
  | VInt z => pretty z
  | VStr s => s
  | _ => str_of_container v
  end.

(** [AttributeNullError.__str__]: an f-string over the current path. *)
Definition AttributeNullError_str (self : instance) : result string :=
  p ← getattr self "attr_path";
  Ok ("Attribute '" ++ py_str p ++ "' cannot be None").

(** ** [VerboseClientError] *)

(** The value assigned to [self.MSG_TEMPLATE] in
    [VerboseClientError.__init__]. *)
Definition VerboseClientError_MSG_TEMPLATE (verbose_properties : value)
    : result string :=
  let verbose_properties :=
    if negb (py_truthy verbose_properties) then VDict ∅
    else verbose_properties in
  request_id ← py_get verbose_properties "request_id" VNone;
  table_name ← py_get verbose_properties "table_name" VNone;
  py_format
    ("An error occurred ({{error_code}}) on request ({request_id}) " ++
     "on table ({table_name}) when calling the {{operation_name}} " ++
     "operation: {{error_message}}")
    []
    {[ "request_id" := py_str request_id; "table_name" := py_str table_name ]}.

(** The constructor of the SDK's [ClientError], which renders the message
    from [MSG_TEMPLATE]; it is not code of this module. *)
Variable ClientError_init : instance → value → string → result instance.

Definition VerboseClientError_init (self : instance) (error_response : value)
    (operation_name : string) (verbose_properties : value) : result instance :=
  template ← VerboseClientError_MSG_TEMPLATE verbose_properties;
  ClientError_init (setattr self "MSG_TEMPLATE" (VStr template))
    error_response operation_name.

End StringForm.

(** ** Shapes of a cause *)

(** [hasattr(o, name)] *)
Definition has_attr (o : value) (name : string) : bool :=
  match o with
  | VObj a => bool_decide (is_Some (a !! name))
  | _ => false
  end.

(** The shapes the accessors are written for: a cause without a [response]
    attribute ([None] included), or one whose [response] is a dictionary in
    which [Error] is missing or is a dictionary itself. *)
Definition expected_shape (cause : value) : bool :=
  match cause with
  | VObj a =>
      match a !! "response" with
      | None => true
      | Some (VDict r) =>
          match r !! "Error" with
          | None | Some (VDict _) => true
          | Some _ => false
          end
      | Some _ => false
      end
  | _ => true
  end.

(** Values on which no [get] resolves: everything but a dictionary and an
    object that carries such an attribute. *)
Definition has_no_get (v : value) : bool :=
  match v with
  | VDict _ => false
  | VObj a => match a !! "get" with None => true | Some _ => false end
  | _ => true
  end.

(** What the base constructor builds once the message is known. *)
Definition built (c : pyclass) (m cause : value) : instance :=
  {| cls := c;
     attrs := <["cause" := cause]> (<["msg" := m]> ∅);
     args := [m] |}.

(** ** Sample causes *)

(** A client error of the SDK, as a conditional write failure reports it. *)
Definition conditional_check_failed : value :=
  VObj {[ "response" :=
            VDict {[ "Error" :=
                       VDict {[ "Code" := VStr "ConditionalCheckFailedException";
                                "Message" := VStr "The conditional request failed" ]} ]};
          "operation_name" := VStr "PutItem" ]}.

(** An exception whose [response] attribute is set to [None], as a transport
    error that never received a response carries it. *)
Definition no_response_received : value :=
  VObj {[ "request" := VNone; "response" := VNone ]}.

(** A response whose [Error] entry is a plain string. *)
Definition flat_error_response : value :=
  VObj {[ "response" := VDict {[ "Error" := VStr "Throttled" ]} ]}.

(** ** The verbose template, as documented *)

(** The template the interface description gives for [VerboseClientError],
    with the request id and the table name already in place and the three
    remaining fields left as placeholders. *)
Definition documented_template (request_id table_name : string) : string :=
  "An error occurred ({error_code}) on request (" ++ request_id ++
  ") on table (" ++ table_name ++
  ") when calling the {operation_name} operation: {error_message}".

(** ** Dotted paths *)

(** The dotted path of a field [leaf] below the containers [outer], outermost
    first. *)
Definition dotted_path (outer : list string) (leaf : string) : string :=
  String.concat "." (outer ++ [leaf]).

(** ** Families of classes *)

(** [PynamoDBConnectionError] and the classes whose header names it. *)
Definition connection_errors : list pyclass :=
  [PynamoDBConnectionError; DeleteError; QueryError; ScanError; PutError;
   UpdateError; GetError; TableError].

(** [PynamoDBException] and every class of the module that derives from it. *)
Definition pynamodb_errors : list pyclass :=
  PynamoDBException :: connection_errors ++
  [DoesNotExist; TableDoesNotExist; TransactWriteError; TransactGetError;
   InvalidStateError].

(** ** Shapes of [verbose_properties] and of rendered text *)

Definition is_dict (v : value) : bool :=
  match v with VDict _ => true | _ => false end.

(** A text without [{] and [}]: [str.format] copies it as it is. *)
Fixpoint brace_free (s : string) : bool :=
  match s with
  | EmptyString => true
  | String c r =>
      negb (Ascii.eqb c "{") && negb (Ascii.eqb c "}") && brace_free r
  end.

(** Identifiers: a letter or an underscore, then letters, digits and
    underscores. A replacement field whose text is an identifier is a plain
    keyword field. *)
Definition is_letter (c : ascii) : bool :=
  let n := nat_of_ascii c in
  Nat.leb 65 n && Nat.leb n 90 || Nat.leb 97 n && Nat.leb n 122.

Definition is_digit (c : ascii) : bool :=
  let n := nat_of_ascii c in Nat.leb 48 n && Nat.leb n 57.

Definition identifier_start (c : ascii) : bool :=
  is_letter c || Ascii.eqb c "_".

Definition identifier_char (c : ascii) : bool :=
  identifier_start c || is_digit c.

Fixpoint all_chars (p : ascii → bool) (s : string) : bool :=
  match s with
  | EmptyString => true
  | String c r => p c && all_chars p r
  end.

Definition is_identifier (s : string) : bool :=
  match s with
  | EmptyString => false
  | String c r => identifier_start c && all_chars identifier_char r
  end.

(** The separator between the two parts of the deserialization message. *)
Definition from_type : string := "' attribute from type: ".

(** * Properties *)

(** ** Hierarchy *)

(** Every class is resolved up to the root: the fuel of [mro] is enough. *)
Lemma mro_reaches_root (c : pyclass) : last (mro c) = Some BaseException.
Proof. destruct c as [| | | | | | | | | | | | | | | | | | | | |[]]; reflexivity. Qed.

(** The classes that run [PynamoDBException.__init__] when called. *)
Lemma inherits_base_constructor (c : pyclass) :
  defining_class c "__init__" = Some PynamoDBException ↔
  c ∈ [PynamoDBException; PynamoDBConnectionError; DeleteError; QueryError;
       ScanError; PutError; UpdateError; GetError; TableError; DoesNotExist;
       TransactWriteError; TransactGetError; InvalidStateError].
Proof.
  split.
  - destruct c as [| | | | | | | | | | | | | | | | | | | | |[]];
      vm_compute; intros H; try discriminate H; set_solver.
  - rewrite !elem_of_cons, elem_of_nil.
    intros H. destruct_or!; subst; try done; by vm_compute.
Qed.

(** ** Strings *)

Lemma string_app_cons (c : ascii) (s t : string) :
  String c s ++ t = String c (s ++ t).
Proof. reflexivity. Qed.

Lemma string_app_empty_r (s : string) : s ++ EmptyString = s.
Proof.
  induction s as [| c s IH]; [done |].
  by rewrite string_app_cons, IH.
Qed.

(** ** Attribute access *)

Lemma getattr_own (self : instance) (name : string) (v : value) :
  attrs self !! name = Some v → getattr self name = Ok v.
Proof. intros H. unfold getattr. by rewrite H. Qed.

Lemma setattr_setattr (self : instance) (name : string) (v w : value) :
  setattr (setattr self name v) name w = setattr self name w.
Proof. unfold setattr. simpl. by rewrite insert_insert_eq. Qed.

Lemma getattr_new (c : pyclass) (a : list value) (name : string) :
  getattr (new c a) name =
  match class_lookup c name with
  | Some v => Ok v
  | None => Raise AttributeError
  end.
Proof. unfold getattr, new. simpl. by rewrite lookup_empty. Qed.

(** ** The base constructor *)

Lemma PynamoDBException_init_new (c : pyclass) (a : list value)
    (msg : option string) (cause : value) :
  PynamoDBException_init (new c a) msg cause =
  match msg with
  | Some s => Ok (built c (VStr s) cause)
  | None =>
      match class_lookup c "msg" with
      | Some d => Ok (built c d cause)
      | None => Raise AttributeError
      end
  end.
Proof.
  assert (∀ m, getattr (setattr (setattr (new c a) "msg" m) "cause" cause) "msg"
               = Ok m) as Hread.
  { intros m. apply getattr_own. simpl.
    rewrite lookup_insert_ne by done. apply lookup_insert_eq. }
  unfold PynamoDBException_init. destruct msg as [s |]; simpl.
  - by rewrite Hread.
  - rewrite getattr_new. destruct (class_lookup c "msg") as [d |]; simpl; [| done].
    by rewrite Hread.
Qed.

(** The default message of a class, when it has one, is a string. *)
Lemma class_lookup_msg_str (c : pyclass) (v : value) :
  class_lookup c "msg" = Some v → ∃ d, v = VStr d.
Proof.
  destruct c as [| | | | | | | | | | | | | | | | | | | | |[]];
    vm_compute; intros H; try discriminate H; injection H as <-; eauto.
Qed.

(** A class that declares a default finds its own declaration first. *)
Lemma class_lookup_own (c : pyclass) (name : string) (v : value) :
  class_attrs c !! name = Some v → class_lookup c name = Some v.
Proof.
  intros H. unfold class_lookup, mro. simpl. by rewrite H.
Qed.

(** ** The response accessors *)

Lemma accessors_read_cause (e : instance) (cause : value) :
  attrs e !! "cause" = Some cause →
  cause_response_code e =
    (error ← py_get (py_getattr_default cause "response" (VDict ∅)) "Error" (VDict ∅);
     py_get error "Code" VNone) ∧
  cause_response_message e =
    (error ← py_get (py_getattr_default cause "response" (VDict ∅)) "Error" (VDict ∅);
     py_get error "Message" VNone).
Proof.
  intros H. unfold cause_response_code, cause_response_message.
  by rewrite (getattr_own _ _ _ H).
Qed.

Lemma no_response_default (cause : value) :
  has_attr cause "response" = false →
  py_getattr_default cause "response" (VDict ∅) = VDict ∅.
Proof.
  destruct cause as [| | | | | |a]; try done. simpl.
  intros H. apply bool_decide_eq_false in H.
  destruct (a !! "response") as [v |] eqn:E; [| done].
  exfalso. apply H. by exists v.
Qed.

(** C1. On an instance whose [cause] is [None], has no [response] attribute,
    or has a [response] dictionary without [Error] or without the key
    inside [Error], both accessors return [None]; when [response] holds
    [{Error: {Code, Message}}] they return the nested values as they are. *)
Theorem cause_response_accessors_spec (e : instance) (cause : value)
    (Hcause : attrs e !! "cause" = Some cause) :
  (cause = VNone →
     cause_response_code e = Ok VNone ∧ cause_response_message e = Ok VNone) ∧
  (has_attr cause "response" = false →
     cause_response_code e = Ok VNone ∧ cause_response_message e = Ok VNone) ∧
  (∀ a r, cause = VObj a → a !! "response" = Some (VDict r) →
     r !! "Error" = None →
     cause_response_code e = Ok VNone ∧ cause_response_message e = Ok VNone) ∧
  (∀ a r er, cause = VObj a → a !! "response" = Some (VDict r) →
     r !! "Error" = Some (VDict er) →
     (er !! "Code" = None → cause_response_code e = Ok VNone) ∧
     (er !! "Message" = None → cause_response_message e = Ok VNone) ∧
     (∀ v, er !! "Code" = Some v → cause_response_code e = Ok v) ∧
     (∀ v, er !! "Message" = Some v → cause_response_message e = Ok v)).
Proof.
  destruct (accessors_read_cause e cause Hcause) as [-> ->].
  split_and!.
  - by intros ->.
  - intros H. by rewrite (no_response_default _ H).
  - intros a r -> Hr HE. simpl. rewrite Hr. simpl. by rewrite HE.
  - intros a r er -> Hr HE. simpl. rewrite Hr. simpl. rewrite HE. simpl.
    split_and!.
    + by intros ->.
    + by intros ->.
    + by intros v ->.
    + by intros v ->.
Qed.

Lemma cause_response_accessors_witness :
  let e := built PutError (VStr "Failed to put item") conditional_check_failed in
  attrs e !! "cause" = Some conditional_check_failed ∧
  cause_response_code e = Ok (VStr "ConditionalCheckFailedException") ∧
  cause_response_message e = Ok (VStr "The conditional request failed").
Proof.
  intros e.
  assert (attrs e !! "cause" = Some conditional_check_failed) as Hcause
    by reflexivity.
  split; [exact Hcause |].
  destruct (cause_response_accessors_spec e _ Hcause) as (_ & _ & _ & H).
  destruct (H _ _ _ eq_refl eq_refl eq_refl) as (_ & _ & Hcode & Hmessage).
  split; [apply Hcode | apply Hmessage]; reflexivity.
Defined.

(** A [response] that is present but is not a dictionary makes the accessors
    raise: [None] has no [get]. *)
Lemma accessors_raise_on_none_response :
  let e := built PutError (VStr "Failed to put item") no_response_received in
  PynamoDBException_call PutError (Some "Failed to put item") no_response_received
    = Ok e ∧
  cause_response_code e = Raise AttributeError ∧
  cause_response_message e = Raise AttributeError ∧
  cause_response_code e ≠ Ok VNone ∧
  cause_response_message e ≠ Ok VNone.
Proof. by vm_compute. Qed.

Example accessors_raise_on_flat_error :
  let e := built PutError (VStr "Failed to put item") flat_error_response in
  cause_response_code e = Raise AttributeError ∧
  cause_response_message e = Raise AttributeError.
Proof. by vm_compute. Qed.

(** C2, as the code has it. On a cause of the expected shape ([None] or any
    value without a [response] attribute, or a [response] dictionary whose
    [Error] entry is missing or is a dictionary) the accessors never raise:
    they return the nested value or [None]. They guard against absent pieces
    only: when the [response] attribute, or the [Error] entry of a [response]
    dictionary, is present but has no [get] ([None], a bool, an int, a string,
    a list, an object without that attribute), both raise AttributeError. *)
Theorem accessors_total_on_expected_shape (e : instance) (cause : value)
    (Hcause : attrs e !! "cause" = Some cause) :
  (expected_shape cause = true →
     ∃ error, py_get (py_getattr_default cause "response" (VDict ∅))
                "Error" (VDict ∅) = Ok (VDict error) ∧
              cause_response_code e = Ok (default VNone (error !! "Code")) ∧
              cause_response_message e = Ok (default VNone (error !! "Message"))) ∧
  (∀ a r, cause = VObj a → a !! "response" = Some r → has_no_get r = true →
     cause_response_code e = Raise AttributeError ∧
     cause_response_message e = Raise AttributeError) ∧
  (∀ a r x, cause = VObj a → a !! "response" = Some (VDict r) →
     r !! "Error" = Some x → has_no_get x = true →
     cause_response_code e = Raise AttributeError ∧
     cause_response_message e = Raise AttributeError).
Proof.
  destruct (accessors_read_cause e cause Hcause) as [-> ->].
  split_and!.
  - intros Hshape.
    destruct cause as [| b | z | s | l | d | a]; try by exists ∅.
    simpl in *.
    destruct (a !! "response") as [[| b | z | s | l | r | o] |];
      try discriminate Hshape; [| by exists ∅].
    simpl.
    destruct (r !! "Error") as [[| b | z | s | l | er | o] |];
      try discriminate Hshape; [by exists er | by exists ∅].
  - intros a r -> Hr Hno. simpl. rewrite Hr. simpl.
    destruct r as [| b | z | s | l | d | o]; try discriminate Hno; try done.
    simpl in *. by destruct (o !! "get").
  - intros a r x -> Hr Hx Hno. simpl. rewrite Hr. simpl. rewrite Hx. simpl.
    destruct x as [| b | z | s | l | d | o]; try discriminate Hno; try done.
    simpl in *. by destruct (o !! "get").
Qed.

Lemma accessors_total_on_expected_shape_witness :
  let e := built DeleteError (VStr "Error deleting item") no_response_received in
  attrs e !! "cause" = Some no_response_received ∧
  has_no_get VNone = true ∧
  cause_response_code e = Raise AttributeError ∧
  cause_response_message e = Raise AttributeError.
Proof.
  intros e.
  assert (attrs e !! "cause" = Some no_response_received) as Hcause
    by reflexivity.
  split; [exact Hcause |].
  split; [reflexivity |].
  destruct (accessors_total_on_expected_shape e _ Hcause) as (_ & Hraise & _).
  exact (Hraise _ VNone eq_refl eq_refl eq_refl).
Defined.

(** ** [VerboseClientError] *)

Section VerboseClientErrorProperties.

Variable str_of_container : value → string.

Lemma verbose_template_format (request_id table_name : string) :
  py_format
    ("An error occurred ({{error_code}}) on request ({request_id}) " ++
     "on table ({table_name}) when calling the {{operation_name}} " ++
     "operation: {{error_message}}")
    [] {[ "request_id" := request_id; "table_name" := table_name ]}
  = Ok (documented_template request_id table_name).
Proof. vm_compute. reflexivity. Qed.

Lemma falsy_dict_is_empty (d : gmap string value) :
  py_truthy (VDict d) = false → d = ∅.
Proof.
  simpl. destruct (map_to_list d) eqn:E; [| done].
  intros _. by apply map_to_list_empty_iff.
Qed.

Lemma MSG_TEMPLATE_dict (d : gmap string value) :
  VerboseClientError_MSG_TEMPLATE str_of_container (VDict d) =
  Ok (documented_template
        (py_str str_of_container (default VNone (d !! "request_id")))
        (py_str str_of_container (default VNone (d !! "table_name")))).
Proof.
  unfold VerboseClientError_MSG_TEMPLATE.
  destruct (py_truthy (VDict d)) eqn:E; simpl negb; cbv iota.
  - apply verbose_template_format.
  - apply falsy_dict_is_empty in E as ->. apply verbose_template_format.
Qed.

(** C3. The template built at construction is the documented one: the
    request id and the table name of [verbose_properties] are put in by
    their string form, which is [None] when [verbose_properties] is absent
    or has no such key, and [{error_code}], [{operation_name}] and
    [{error_message}] are left as placeholders. *)
Theorem MSG_TEMPLATE_spec (d : gmap string value) :
  VerboseClientError_MSG_TEMPLATE str_of_container (VDict d) =
    Ok (documented_template
          (py_str str_of_container (default VNone (d !! "request_id")))
          (py_str str_of_container (default VNone (d !! "table_name")))) ∧
  VerboseClientError_MSG_TEMPLATE str_of_container VNone =
    Ok (documented_template "None" "None") ∧
  (d !! "request_id" = None → d !! "table_name" = None →
     VerboseClientError_MSG_TEMPLATE str_of_container (VDict d) =
       Ok (documented_template "None" "None")) ∧
  (∀ request_id table_name,
     d !! "request_id" = Some (VStr request_id) →
     d !! "table_name" = Some (VStr table_name) →
     VerboseClientError_MSG_TEMPLATE str_of_container (VDict d) =
       Ok (documented_template request_id table_name)) ∧
  (∀ ClientError_init self error_response operation_name,
     VerboseClientError_init str_of_container ClientError_init self
       error_response operation_name (VDict d) =
     ClientError_init
       (setattr self "MSG_TEMPLATE"
          (VStr (documented_template
                   (py_str str_of_container (default VNone (d !! "request_id")))
                   (py_str str_of_container (default VNone (d !! "table_name"))))))
       error_response operation_name).
Proof.
  split_and!.
  - apply MSG_TEMPLATE_dict.
  - apply verbose_template_format.
  - intros H1 H2. by rewrite MSG_TEMPLATE_dict, H1, H2.
  - intros r t H1 H2. by rewrite MSG_TEMPLATE_dict, H1, H2.
  - intros init self er op. unfold VerboseClientError_init.
    by rewrite MSG_TEMPLATE_dict.
Qed.

End VerboseClientErrorProperties.

Lemma MSG_TEMPLATE_spec_witness :
  let d : gmap string value :=
    {[ "request_id" := VStr "abc"; "table_name" := VStr "Users" ]} in
  d !! "request_id" = Some (VStr "abc") ∧
  d !! "table_name" = Some (VStr "Users") ∧
  VerboseClientError_MSG_TEMPLATE (λ _, EmptyString) (VDict d) =
    Ok ("An error occurred ({error_code}) on request (abc) on table (Users) " ++
        "when calling the {operation_name} operation: {error_message}").
Proof.
  intros d.
  destruct (MSG_TEMPLATE_spec (λ _, EmptyString) d) as (_ & _ & _ & H & _).
  split_and!; [reflexivity | reflexivity |].
  apply (H "abc" "Users"); reflexivity.
Defined.

(** A non-empty value that is not a dictionary has no [get]. *)
Example MSG_TEMPLATE_not_a_dict :
  VerboseClientError_MSG_TEMPLATE (λ _, EmptyString) (VStr "abc")
    = Raise AttributeError.
Proof. reflexivity. Qed.

(** ** [AttributeNullError] *)

Lemma concat_cons_snoc (sep x y : string) (l : list string) :
  String.concat sep (x :: l ++ [y]) = x ++ sep ++ String.concat sep (l ++ [y]).
Proof. by destruct l. Qed.

Lemma dotted_path_nil (leaf : string) : dotted_path [] leaf = leaf.
Proof. reflexivity. Qed.

Lemma dotted_path_snoc (outer : list string) (p leaf : string) :
  dotted_path (outer ++ [p]) leaf = dotted_path outer (p ++ "." ++ leaf).
Proof.
  unfold dotted_path. induction outer as [| x outer IH]; [done |].
  rewrite <- !app_comm_cons, !concat_cons_snoc. by rewrite IH.
Qed.

Lemma setattr_same (e : instance) (name : string) (v : value) :
  attrs e !! name = Some v → setattr e name v = e.
Proof.
  intros H. destruct e as [c a r]. unfold setattr. simpl in *.
  by rewrite (insert_id _ _ _ H).
Qed.

Lemma prepend_path_known (e : instance) (p path : string) :
  attrs e !! "attr_path" = Some (VStr path) →
  prepend_path e p = Ok (setattr e "attr_path" (VStr (p ++ "." ++ path))).
Proof. intros H. unfold prepend_path. by rewrite (getattr_own _ _ _ H). Qed.

Lemma prepend_paths_known (names : list string) :
  ∀ (e : instance) (path : string),
    attrs e !! "attr_path" = Some (VStr path) →
    prepend_paths e names =
      Ok (setattr e "attr_path" (VStr (dotted_path (reverse names) path))).
Proof.
  induction names as [| p names IH]; intros e path H.
  - rewrite reverse_nil, dotted_path_nil. simpl.
    by rewrite (setattr_same _ _ _ H).
  - simpl. rewrite (prepend_path_known _ _ _ H). simpl.
    rewrite (IH _ (p ++ "." ++ path)) by apply lookup_insert_eq.
    by rewrite setattr_setattr, reverse_cons, dotted_path_snoc.
Qed.

Section AttributeNullErrorProperties.

Variable str_of_container : value → string.

Lemma AttributeNullError_str_known (e : instance) (path : string) :
  attrs e !! "attr_path" = Some (VStr path) →
  AttributeNullError_str str_of_container e =
    Ok ("Attribute '" ++ path ++ "' cannot be None").
Proof.
  intros H. unfold AttributeNullError_str. by rewrite (getattr_own _ _ _ H).
Qed.

(** C4. After [AttributeNullError(a)] and the calls [prepend_path(p1)], ...,
    [prepend_path(pn)], the string form is
    [Attribute 'pn.....p1.a' cannot be None]: each conversion reads the
    current path, so it holds after every prefix of the calls, and one more
    call puts its name in front. *)
Theorem AttributeNullError_str_spec (a : string) (names : list string) :
  (e0 ← AttributeNullError_call a;
   e ← prepend_paths e0 names;
   AttributeNullError_str str_of_container e)
    = Ok ("Attribute '" ++ dotted_path (reverse names) a ++ "' cannot be None") ∧
  (∀ p,
     (e0 ← AttributeNullError_call a;
      e ← prepend_paths e0 names;
      e' ← prepend_path e p;
      AttributeNullError_str str_of_container e')
       = Ok ("Attribute '" ++ (p ++ "." ++ dotted_path (reverse names) a)
               ++ "' cannot be None")) ∧
  (e0 ← AttributeNullError_call "name";
   e1 ← prepend_path e0 "user";
   e2 ← prepend_path e1 "record";
   AttributeNullError_str str_of_container e2)
    = Ok "Attribute 'record.user.name' cannot be None".
Proof.
  assert (∀ s, attrs (setattr (new AttributeNullError [VStr a]) "attr_path" (VStr s))
                 !! "attr_path" = Some (VStr s)) as Hnew
    by (intros; apply lookup_insert_eq).
  split_and!.
  - unfold AttributeNullError_call, AttributeNullError_init. simpl.
    rewrite (prepend_paths_known names _ a) by apply Hnew. simpl.
    rewrite setattr_setattr. by apply AttributeNullError_str_known.
  - intros p.
    unfold AttributeNullError_call, AttributeNullError_init. simpl.
    rewrite (prepend_paths_known names _ a) by apply Hnew. simpl.
    rewrite setattr_setattr.
    rewrite (prepend_path_known _ p (dotted_path (reverse names) a))
      by apply Hnew. simpl.
    rewrite setattr_setattr. by apply AttributeNullError_str_known.
  - reflexivity.
Qed.

End AttributeNullErrorProperties.

(** ** Messages of the [PynamoDBException] family *)

Lemma built_reads (c : pyclass) (m cause : value) :
  getattr (built c m cause) "msg" = Ok m ∧
  getattr (built c m cause) "cause" = Ok cause.
Proof.
  split; apply getattr_own; simpl.
  - rewrite lookup_insert_ne by done. apply lookup_insert_eq.
  - apply lookup_insert_eq.
Qed.

Lemma built_dom (c : pyclass) (m cause : value) :
  dom (attrs (built c m cause)) = ({[ "msg"; "cause" ]} : gset string).
Proof. simpl. rewrite !dom_insert_L, dom_empty_L. set_solver. Qed.

(** C5. A class that declares a default message yields exactly that string
    when it is constructed without a message, and the explicit message when
    one is given. *)
Theorem default_message_spec (c : pyclass) (d : string) (cause : value)
    (Hdefault : class_attrs c !! "msg" = Some (VStr d)) :
  defining_class c "__init__" = Some PynamoDBException ∧
  PynamoDBException_call c None cause = Ok (built c (VStr d) cause) ∧
  getattr (built c (VStr d) cause) "msg" = Ok (VStr d) ∧
  (∀ m, PynamoDBException_call c (Some m) cause = Ok (built c (VStr m) cause) ∧
        getattr (built c (VStr m) cause) "msg" = Ok (VStr m)).
Proof.
  split_and!.
  - destruct c as [| | | | | | | | | | | | | | | | | | | | |[]];
      solve [ vm_compute; reflexivity
            | vm_compute in Hdefault; discriminate Hdefault ].
  - unfold PynamoDBException_call. rewrite PynamoDBException_init_new.
    by rewrite (class_lookup_own _ _ _ Hdefault).
  - apply built_reads.
  - intros m. split; [| apply built_reads].
    unfold PynamoDBException_call. by rewrite PynamoDBException_init_new.
Qed.

Lemma default_message_spec_witness :
  class_attrs PynamoDBConnectionError !! "msg" = Some (VStr "Connection Error") ∧
  PynamoDBException_call PynamoDBConnectionError None VNone
    = Ok (built PynamoDBConnectionError (VStr "Connection Error") VNone) ∧
  PynamoDBException_call PynamoDBConnectionError (Some "timed out") VNone
    = Ok (built PynamoDBConnectionError (VStr "timed out") VNone).
Proof.
  assert (class_attrs PynamoDBConnectionError !! "msg"
            = Some (VStr "Connection Error")) as Hdefault by reflexivity.
  split; [exact Hdefault |].
  destruct (default_message_spec PynamoDBConnectionError "Connection Error"
              VNone Hdefault) as (_ & Hnone & _ & Hsome).
  split; [exact Hnone | exact (proj1 (Hsome "timed out"))].
Defined.

Example DoesNotExist_default :
  (e ← PynamoDBException_call DoesNotExist None VNone; getattr e "msg")
    = Ok (VStr "Item does not exist").
Proof. reflexivity. Qed.

Example InvalidStateError_default :
  (e ← PynamoDBException_call InvalidStateError None VNone; getattr e "msg")
    = Ok (VStr "Operation in invalid state").
Proof. reflexivity. Qed.

(** The default of an operation error is its own, not the one of
    [PynamoDBConnectionError] it derives from. *)
Example DeleteError_default :
  (e ← PynamoDBException_call DeleteError None VNone; getattr e "msg")
    = Ok (VStr "Error deleting item").
Proof. reflexivity. Qed.

(** [TransactWriteError] and [TransactGetError] declare no default and
    inherit none: without a message their construction raises. *)
Lemma transact_errors_need_message :
  PynamoDBException_call TransactWriteError None VNone = Raise AttributeError ∧
  PynamoDBException_call TransactGetError None VNone = Raise AttributeError ∧
  is_ok (PynamoDBException_call TransactWriteError None VNone) = false ∧
  is_ok (PynamoDBException_call TransactGetError None VNone) = false.
Proof. by vm_compute. Qed.

Lemma no_default_classes (c : pyclass) :
  defining_class c "__init__" = Some PynamoDBException →
  (class_lookup c "msg" = None ↔
   c ∈ [PynamoDBException; TransactWriteError; TransactGetError]).
Proof.
  intros Hinit. apply inherits_base_constructor in Hinit.
  rewrite !elem_of_cons, elem_of_nil in *.
  destruct_or!; subst; try done;
    (split; [vm_compute; intros H; first [discriminate H | tauto]
            | intros H; destruct_or!; first [discriminate H | done]]).
Qed.

(** C6, as the code has it. For a class that inherits the base constructor,
    construction with a message always succeeds; construction without one
    succeeds exactly when a class-level default is found, and yields that
    default. [PynamoDBException], [TransactWriteError] and
    [TransactGetError] are the classes without a default: their message has
    to come from the caller, and without it the constructor raises
    AttributeError. *)
Theorem construction_without_message_spec (c : pyclass) (cause : value)
    (Hinit : defining_class c "__init__" = Some PynamoDBException) :
  (∀ m, PynamoDBException_call c (Some m) cause = Ok (built c (VStr m) cause)) ∧
  is_ok (PynamoDBException_call c None cause)
    = bool_decide (is_Some (class_lookup c "msg")) ∧
  (∀ d, class_lookup c "msg" = Some d →
        PynamoDBException_call c None cause = Ok (built c d cause) ∧
        ∃ s, d = VStr s) ∧
  (class_lookup c "msg" = None →
   PynamoDBException_call c None cause = Raise AttributeError) ∧
  (class_lookup c "msg" = None ↔
   c ∈ [PynamoDBException; TransactWriteError; TransactGetError]).
Proof.
  unfold PynamoDBException_call. split_and!.
  - intros m. by rewrite PynamoDBException_init_new.
  - rewrite PynamoDBException_init_new.
    by destruct (class_lookup c "msg") as [d |].
  - intros d Hd. rewrite PynamoDBException_init_new, Hd.
    split; [done | by apply (class_lookup_msg_str c)].
  - intros Hd. by rewrite PynamoDBException_init_new, Hd.
  - by apply no_default_classes.
Qed.

Lemma construction_without_message_spec_witness :
  defining_class TransactWriteError "__init__" = Some PynamoDBException ∧
  PynamoDBException_call TransactWriteError (Some "transaction cancelled")
      conditional_check_failed
    = Ok (built TransactWriteError (VStr "transaction cancelled")
            conditional_check_failed) ∧
  is_ok (PynamoDBException_call TransactWriteError None conditional_check_failed)
    = false.
Proof.
  assert (defining_class TransactWriteError "__init__" = Some PynamoDBException)
    as Hinit by reflexivity.
  split; [exact Hinit |].
  destruct (construction_without_message_spec TransactWriteError
              conditional_check_failed Hinit) as (Hsome & Hok & _).
  split; [exact (Hsome "transaction cancelled") | exact Hok].
Defined.

(** ** [TableDoesNotExist] *)

Lemma table_message_format (table_name : string) :
  py_format "Table does not exist: `{}`" [table_name] ∅
    = Ok ("Table does not exist: `" ++ table_name ++ "`").
Proof. reflexivity. Qed.

(** C7. [TableDoesNotExist(n)] carries the message
    [Table does not exist: `n`] and nothing else: its attributes are [msg] and
    [cause], its [args] hold the message, and no [table_name] is kept. *)
Theorem TableDoesNotExist_spec (n : string) :
  let message := "Table does not exist: `" ++ n ++ "`" in
  let e := built TableDoesNotExist (VStr message) VNone in
  TableDoesNotExist_call n = Ok e ∧
  getattr e "msg" = Ok (VStr message) ∧
  args e = [VStr message] ∧
  dom (attrs e) = ({[ "msg"; "cause" ]} : gset string) ∧
  getattr e "table_name" = Raise AttributeError ∧
  (e' ← TableDoesNotExist_call "Users"; getattr e' "msg")
    = Ok (VStr "Table does not exist: `Users`").
Proof.
  intros message e. split_and!.
  - unfold TableDoesNotExist_call, TableDoesNotExist_init.
    rewrite table_message_format. simpl.
    by rewrite PynamoDBException_init_new.
  - apply built_reads.
  - reflexivity.
  - apply built_dom.
  - reflexivity.
  - reflexivity.
Qed.

(** ** [AttributeDeserializationError] *)

Lemma deserialization_message_format (attr_name attr_type : string) :
  py_format "Cannot deserialize '{}' attribute from type: {}"
    [attr_name; attr_type] ∅
    = Ok ("Cannot deserialize '" ++ attr_name ++ "' attribute from type: "
            ++ attr_type).
Proof.
  unfold py_format. simpl. by rewrite string_app_empty_r.
Qed.

(** C8. [AttributeDeserializationError(a, t)] carries the message
    [Cannot deserialize 'a' attribute from type: t], fixed when it is built:
    the message is the only entry of [args], the object has no attribute of
    its own, and the class defines no method but its constructor. *)
Theorem AttributeDeserializationError_spec (a t : string) :
  let message := "Cannot deserialize '" ++ a ++ "' attribute from type: " ++ t in
  AttributeDeserializationError_call a t =
    Ok {| cls := AttributeDeserializationError; attrs := ∅;
          args := [VStr message] |} ∧
  class_defs AttributeDeserializationError = ["__init__"] ∧
  defining_class AttributeDeserializationError "prepend_path" = None ∧
  AttributeDeserializationError_call "age" "S" =
    Ok {| cls := AttributeDeserializationError; attrs := ∅;
          args := [VStr "Cannot deserialize 'age' attribute from type: S"] |}.
Proof.
  intros message. split_and!.
  - unfold AttributeDeserializationError_call, AttributeDeserializationError_init.
    by rewrite deserialization_message_format.
  - reflexivity.
  - by vm_compute.
  - reflexivity.
Qed.

(** ** The stored cause *)

(** C9. The base constructor stores the cause it is given as it is: whatever
    its shape, the [cause] attribute of the new object is that value, and the
    object holds nothing but [msg] and [cause], with the message as its
    [args]. *)
Theorem cause_stored_unchanged (c : pyclass) (msg : option string)
    (cause : value) (e : instance)
    (Hcall : PynamoDBException_call c msg cause = Ok e) :
  attrs e !! "cause" = Some cause ∧
  getattr e "cause" = Ok cause ∧
  dom (attrs e) = ({[ "msg"; "cause" ]} : gset string) ∧
  (∃ m, e = built c m cause ∧ getattr e "msg" = Ok m ∧ args e = [m]) ∧
  cls e = c.
Proof.
  unfold PynamoDBException_call in Hcall.
  rewrite PynamoDBException_init_new in Hcall.
  assert (∃ m, e = built c m cause) as [m ->].
  { destruct msg as [s |]; [injection Hcall as <-; eauto |].
    destruct (class_lookup c "msg") as [d |]; [| discriminate Hcall].
    injection Hcall as <-; eauto. }
  split_and!.
  - apply lookup_insert_eq.
  - apply built_reads.
  - apply built_dom.
  - exists m. split_and!; [done | apply built_reads | done].
  - reflexivity.
Qed.

Lemma cause_stored_unchanged_witness :
  PynamoDBException_call QueryError None no_response_received
    = Ok (built QueryError (VStr "Error performing query") no_response_received) ∧
  attrs (built QueryError (VStr "Error performing query") no_response_received)
    !! "cause" = Some no_response_received.
Proof.
  assert (PynamoDBException_call QueryError None no_response_received
          = Ok (built QueryError (VStr "Error performing query")
                  no_response_received)) as Hcall by reflexivity.
  split; [exact Hcall |].
  exact (proj1 (cause_stored_unchanged QueryError None no_response_received
                  _ Hcall)).
Defined.

(** ** Errors outside the [PynamoDBException] family *)

(** C10. [AttributeDeserializationError] derives from [TypeError] and
    [AttributeNullError] from [ValueError]; neither is a
    [PynamoDBException]. Their instances have no [cause], their classes have
    no [cause_response_code] or [cause_response_message], and a handler for
    [PynamoDBException] does not catch them. *)
Theorem builtin_derived_errors_spec (a t : string) (names : list string) :
  base AttributeDeserializationError = Some (Builtin TypeError) ∧
  base AttributeNullError = Some (Builtin ValueError) ∧
  issubclass AttributeDeserializationError (Builtin TypeError) = true ∧
  issubclass AttributeNullError (Builtin ValueError) = true ∧
  issubclass AttributeDeserializationError PynamoDBException = false ∧
  issubclass AttributeNullError PynamoDBException = false ∧
  class_defines AttributeDeserializationError "cause_response_code" = false ∧
  class_defines AttributeDeserializationError "cause_response_message" = false ∧
  class_defines AttributeNullError "cause_response_code" = false ∧
  class_defines AttributeNullError "cause_response_message" = false ∧
  (∃ e, AttributeDeserializationError_call a t = Ok e ∧
        attrs e !! "cause" = None ∧
        getattr e "cause" = Raise AttributeError ∧
        catches PynamoDBException e = false ∧
        catches (Builtin TypeError) e = true) ∧
  (∃ e, (e0 ← AttributeNullError_call a; prepend_paths e0 names) = Ok e ∧
        attrs e !! "cause" = None ∧
        getattr e "cause" = Raise AttributeError ∧
        catches PynamoDBException e = false ∧
        catches (Builtin ValueError) e = true).
Proof.
  split_and!; try by vm_compute.
  - eexists. split_and!.
    + unfold AttributeDeserializationError_call, AttributeDeserializationError_init.
      by rewrite deserialization_message_format.
    + reflexivity.
    + reflexivity.
    + by vm_compute.
    + by vm_compute.
  - eexists. split_and!.
    + unfold AttributeNullError_call, AttributeNullError_init. simpl.
      apply (prepend_paths_known names _ a), lookup_insert_eq.
    + simpl. rewrite lookup_insert_ne by done.
      rewrite lookup_insert_ne by done. apply lookup_empty.
    + unfold getattr. simpl. rewrite lookup_insert_ne by done.
      rewrite lookup_insert_ne by done. by rewrite lookup_empty.
    + by vm_compute.
    + by vm_compute.
Qed.

(** Every class of the family is caught by a [PynamoDBException] handler. *)
Lemma family_is_caught (c : pyclass) :
  defining_class c "__init__" = Some PynamoDBException →
  issubclass c PynamoDBException = true.
Proof.
  intros H. apply inherits_base_constructor in H.
  rewrite !elem_of_cons, elem_of_nil in H.
  destruct_or!; subst; try done; by vm_compute.
Qed.

(** * Further properties *)

(** ** Which handler catches which class *)

(** A handler for [PynamoDBConnectionError] catches that class and the seven
    operation errors, and no other class: [DoesNotExist],
    [TableDoesNotExist], the transaction errors and [InvalidStateError] pass
    it by. *)
Theorem connection_handler_catches (c : pyclass) :
  issubclass c PynamoDBConnectionError = true ↔ c ∈ connection_errors.
Proof.
  rewrite <- (bool_decide_eq_true (c ∈ connection_errors)).
  destruct c as [| | | | | | | | | | | | | | | | | | | | |[]]; by vm_compute.
Qed.

(** The classes caught by a [PynamoDBException] handler are the fourteen
    classes of the family, and they are exactly the classes on which the two
    response accessors resolve; [VerboseClientError] and the two attribute
    errors are outside. Every class of the family is an [Exception]. *)
Theorem family_handler_catches (c : pyclass) :
  (issubclass c PynamoDBException = true ↔ c ∈ pynamodb_errors) ∧
  class_defines c "cause_response_code" = issubclass c PynamoDBException ∧
  class_defines c "cause_response_message" = issubclass c PynamoDBException ∧
  (issubclass c PynamoDBException = true → issubclass c Exception = true) ∧
  issubclass VerboseClientError PynamoDBException = false ∧
  issubclass VerboseClientError ClientError = true.
Proof.
  rewrite <- (bool_decide_eq_true (c ∈ pynamodb_errors)).
  destruct c as [| | | | | | | | | | | | | | | | | | | | |[]]; by vm_compute.
Qed.

Lemma connection_handler_catches_witness :
  issubclass PutError PynamoDBConnectionError = true ∧
  PutError ∈ connection_errors.
Proof.
  assert (issubclass PutError PynamoDBConnectionError = true) as H
    by reflexivity.
  split; [exact H |].
  exact (proj1 (connection_handler_catches PutError) H).
Defined.

Lemma family_handler_catches_witness :
  issubclass TableDoesNotExist PynamoDBException = true ∧
  TableDoesNotExist ∈ pynamodb_errors ∧
  issubclass TableDoesNotExist Exception = true.
Proof.
  assert (issubclass TableDoesNotExist PynamoDBException = true) as H
    by reflexivity.
  destruct (family_handler_catches TableDoesNotExist) as (Hin & _ & _ & Hexc & _).
  split_and!; [exact H | exact (proj1 Hin H) | exact (Hexc H)].
Defined.

(** ** Default messages *)

(** Two objects built without a message carry the same message only when
    they are of the same class: the default messages of the module are
    pairwise different, so the message tells the class. *)
Theorem default_message_identifies_class (c c' : pyclass)
    (cause cause' : value) (e e' : instance)
    (Hinit : defining_class c "__init__" = Some PynamoDBException)
    (Hinit' : defining_class c' "__init__" = Some PynamoDBException)
    (Hcall : PynamoDBException_call c None cause = Ok e)
    (Hcall' : PynamoDBException_call c' None cause' = Ok e')
    (Hsame : getattr e "msg" = getattr e' "msg") :
  c = c'.
Proof.
  unfold PynamoDBException_call in *.
  rewrite PynamoDBException_init_new in Hcall, Hcall'.
  destruct (class_lookup c "msg") as [d |] eqn:Hd; [| discriminate Hcall].
  destruct (class_lookup c' "msg") as [d' |] eqn:Hd'; [| discriminate Hcall'].
  injection Hcall as <-. injection Hcall' as <-.
  rewrite (proj1 (built_reads c d cause)) in Hsame.
  rewrite (proj1 (built_reads c' d' cause')) in Hsame.
  injection Hsame as <-. clear Hinit Hinit' cause cause'.
  destruct c as [| | | | | | | | | | | | | | | | | | | | |[]];
    vm_compute in Hd; try discriminate Hd; injection Hd as <-;
    destruct c' as [| | | | | | | | | | | | | | | | | | | | |[]];
    vm_compute in Hd'; first [discriminate Hd' | reflexivity].
Qed.

Lemma default_message_identifies_class_witness :
  PynamoDBException_call GetError None VNone
    = Ok (built GetError (VStr "Error getting item") VNone) ∧
  PynamoDBException_call GetError None conditional_check_failed
    = Ok (built GetError (VStr "Error getting item") conditional_check_failed) ∧
  GetError = GetError.
Proof.
  split_and!; [reflexivity | reflexivity |].
  exact (default_message_identifies_class GetError GetError VNone
           conditional_check_failed _ _ eq_refl eq_refl eq_refl eq_refl eq_refl).
Defined.

(** ** [TableDoesNotExist] without a cause *)

(** [TableDoesNotExist] passes no cause on: whatever the table name, the
    object's cause is [None] and both response accessors return [None]. *)
Theorem TableDoesNotExist_has_no_cause (n : string) :
  (e ← TableDoesNotExist_call n; getattr e "cause") = Ok VNone ∧
  (e ← TableDoesNotExist_call n; cause_response_code e) = Ok VNone ∧
  (e ← TableDoesNotExist_call n; cause_response_message e) = Ok VNone.
Proof.
  unfold TableDoesNotExist_call, TableDoesNotExist_init.
  rewrite table_message_format. simpl.
  rewrite PynamoDBException_init_new. simpl.
  split_and!; reflexivity.
Qed.

(** ** Messages as carriers *)

Lemma string_app_assoc (s t u : string) : (s ++ t) ++ u = s ++ (t ++ u).
Proof.
  induction s as [| c s IH]; [done |].
  by rewrite !string_app_cons, IH.
Qed.

Lemma length_app_string (s t : string) :
  String.length (s ++ t) = String.length s + String.length t.
Proof.
  induction s as [| c s IH]; [done |].
  rewrite string_app_cons. simpl. by rewrite IH.
Qed.

Lemma string_snoc_inj (c : ascii) (s s' : string) :
  s ++ String c EmptyString = s' ++ String c EmptyString → s = s'.
Proof.
  revert s'. induction s as [| x s IH]; intros [| x' s'] H.
  - reflexivity.
  - rewrite string_app_cons in H. injection H as _ H.
    destruct s'; discriminate H.
  - rewrite string_app_cons in H. injection H as _ H.
    destruct s; discriminate H.
  - rewrite !string_app_cons in H. injection H as -> H.
    by rewrite (IH _ H).
Qed.

Lemma TableDoesNotExist_call_built (n : string) :
  TableDoesNotExist_call n =
  Ok (built TableDoesNotExist (VStr ("Table does not exist: `" ++ n ++ "`")) VNone).
Proof.
  unfold TableDoesNotExist_call, TableDoesNotExist_init.
  rewrite table_message_format. simpl.
  by rewrite PynamoDBException_init_new.
Qed.

(** The message of [TableDoesNotExist] determines the table name: two names
    that give the same object are the same name. *)
Theorem TableDoesNotExist_name_recoverable (n n' : string)
    (Hsame : TableDoesNotExist_call n = TableDoesNotExist_call n') :
  n = n'.
Proof.
  rewrite !TableDoesNotExist_call_built in Hsame. injection Hsame as H _.
  apply (string_snoc_inj "`"). exact H.
Qed.

Lemma TableDoesNotExist_name_recoverable_witness :
  TableDoesNotExist_call "Users" = TableDoesNotExist_call "Users" ∧
  "Users" = "Users".
Proof.
  split; [reflexivity |].
  exact (TableDoesNotExist_name_recoverable "Users" "Users" eq_refl).
Defined.

(** The message of [AttributeDeserializationError] does not keep its two
    parts apart: an attribute name that contains the separating text and a
    type that contains it give the same object. *)
Theorem AttributeDeserializationError_ambiguous (x y z : string) :
  AttributeDeserializationError_call (x ++ from_type ++ y) z =
  AttributeDeserializationError_call x (y ++ from_type ++ z) ∧
  (y ++ from_type ++ z ≠ z) ∧
  is_ok (AttributeDeserializationError_call x (y ++ from_type ++ z)) = true.
Proof.
  unfold AttributeDeserializationError_call, AttributeDeserializationError_init.
  rewrite !deserialization_message_format. simpl.
  split_and!.
  - unfold Exception_init, new. simpl. do 4 f_equal.
    change ("' attribute from type: ") with from_type.
    by rewrite !string_app_assoc.
  - intros H.
    assert (String.length (y ++ from_type ++ z) = String.length z) as Hlen
      by (by rewrite H).
    rewrite !length_app_string in Hlen. simpl in Hlen. lia.
  - reflexivity.
Qed.

(** ** What [prepend_path] keeps and how it composes *)

(** [prepend_path] touches the path only. After the constructor and any
    calls, the object is still an [AttributeNullError], [attr_path] is its
    only attribute, and [args] still hold the bare attribute name the object
    was built with, not the dotted path. *)
Theorem prepend_path_frame (a : string) (names : list string) :
  ∃ e, (e0 ← AttributeNullError_call a; prepend_paths e0 names) = Ok e ∧
       cls e = AttributeNullError ∧
       args e = [VStr a] ∧
       dom (attrs e) = ({[ "attr_path" ]} : gset string) ∧
       getattr e "attr_path" = Ok (VStr (dotted_path (reverse names) a)).
Proof.
  eexists. split_and!.
  - unfold AttributeNullError_call, AttributeNullError_init. simpl.
    apply (prepend_paths_known names _ a), lookup_insert_eq.
  - reflexivity.
  - reflexivity.
  - simpl. rewrite !dom_insert_L, dom_empty_L. set_solver.
  - apply getattr_own, lookup_insert_eq.
Qed.

(** Prepending a dotted name is the same as prepending its parts, innermost
    first; this holds on every object, the failing calls included. *)
Theorem prepend_path_dotted (e : instance) (p q : string) :
  prepend_path e (p ++ "." ++ q) =
  (e' ← prepend_path e q; prepend_path e' p).
Proof.
  unfold prepend_path.
  destruct (getattr e "attr_path") as [[| b | z | s | l | d | o] | x]; try done.
  simpl. rewrite (getattr_own _ _ (VStr (q ++ "." ++ s)))
    by apply lookup_insert_eq.
  simpl.
  rewrite setattr_setattr. do 3 f_equal.
  by rewrite !string_app_assoc.
Qed.

(** ** [VerboseClientError]: when the template can be built *)

Section VerboseClientErrorEdges.

Variable str_of_container : value → string.

Lemma MSG_TEMPLATE_falsy (verbose_properties : value) :
  py_truthy verbose_properties = false →
  VerboseClientError_MSG_TEMPLATE str_of_container verbose_properties =
    Ok (documented_template "None" "None").
Proof.
  intros H. unfold VerboseClientError_MSG_TEMPLATE. rewrite H.
  apply verbose_template_format.
Qed.

(** The template is built when [verbose_properties] is a dictionary or counts
    as false. A value that counts as true and on which no [get] resolves
    ([True], a non-zero int, a non-empty string or list, an object without
    that attribute) makes the constructor raise AttributeError before it
    reaches the SDK. *)
Theorem MSG_TEMPLATE_raises_without_get (verbose_properties : value) :
  (negb (py_truthy verbose_properties) || is_dict verbose_properties = true →
   is_ok (VerboseClientError_MSG_TEMPLATE str_of_container verbose_properties)
     = true) ∧
  (py_truthy verbose_properties = true →
   has_no_get verbose_properties = true →
   VerboseClientError_MSG_TEMPLATE str_of_container verbose_properties
     = Raise AttributeError ∧
   ∀ ClientError_init self error_response operation_name,
     VerboseClientError_init str_of_container ClientError_init self
       error_response operation_name verbose_properties
       = Raise AttributeError).
Proof.
  split.
  - intros H. destruct (py_truthy verbose_properties) eqn:Htruthy.
    + destruct verbose_properties as [| b | z | s | l | d | o];
        try discriminate H.
      by rewrite MSG_TEMPLATE_dict.
    + by rewrite (MSG_TEMPLATE_falsy _ Htruthy).
  - intros Htruthy Hno.
    assert (VerboseClientError_MSG_TEMPLATE str_of_container verbose_properties
            = Raise AttributeError) as Hraise.
    { unfold VerboseClientError_MSG_TEMPLATE. rewrite Htruthy. simpl negb.
      cbv iota.
      destruct verbose_properties as [| b | z | s | l | d | o];
        try discriminate Hno; try reflexivity.
      simpl in *. by destruct (o !! "get"). }
    split; [exact Hraise |].
    intros init self er op. unfold VerboseClientError_init.
    by rewrite Hraise.
Qed.

End VerboseClientErrorEdges.

Lemma MSG_TEMPLATE_raises_without_get_witness :
  py_truthy (VStr "req-1") = true ∧
  has_no_get (VStr "req-1") = true ∧
  VerboseClientError_init (λ _, EmptyString)
    (λ self _ _, Ok self) (new VerboseClientError [])
    (VDict ∅) "PutItem" (VStr "req-1") = Raise AttributeError.
Proof.
  split; [reflexivity |]. split; [reflexivity |].
  destruct (MSG_TEMPLATE_raises_without_get (λ _, EmptyString) (VStr "req-1"))
    as (_ & Hraise).
  exact (proj2 (Hraise eq_refl eq_refl)
           (λ self _ _, Ok self) (new VerboseClientError []) (VDict ∅) "PutItem").
Defined.

(** ** Rendering the verbose template *)

Lemma brace_free_cons (c : ascii) (s : string) :
  brace_free (String c s) = true →
  Ascii.eqb c "{" = false ∧ Ascii.eqb c "}" = false ∧ brace_free s = true.
Proof.
  simpl. destruct (Ascii.eqb c "{"), (Ascii.eqb c "}"), (brace_free s); done.
Qed.

(** Text without braces is copied. *)
Lemma format_from_literal (s rest : string) (auto : nat) (args : list string)
    (kwargs : gmap string string) :
  brace_free s = true →
  format_from (s ++ rest) None auto args kwargs =
  (r ← format_from rest None auto args kwargs; Ok (s ++ r)).
Proof.
  induction s as [| c s IH]; intros H.
  - change (EmptyString ++ rest) with rest.
    by destruct (format_from rest None auto args kwargs).
  - apply brace_free_cons in H as (Hopen & Hclose & Hs).
    rewrite string_app_cons. simpl. rewrite Hopen, Hclose, (IH Hs).
    by destruct (format_from rest None auto args kwargs).
Qed.

(** Inside a replacement field the name is read up to the closing brace. *)
Lemma format_from_name (name rest acc : string) (auto : nat)
    (args : list string) (kwargs : gmap string string) :
  brace_free name = true →
  acc ++ name ≠ EmptyString →
  format_from (name ++ String "}" rest) (Some acc) auto args kwargs =
  match kwargs !! (acc ++ name) with
  | Some v => rest' ← format_from rest None auto args kwargs; Ok (v ++ rest')
  | None => Raise KeyError
  end.
Proof.
  revert acc. induction name as [| c name IH]; intros acc H Hne.
  - rewrite string_app_empty_r in *.
    change (EmptyString ++ String "}" rest) with (String "}" rest). simpl.
    by destruct acc.
  - apply brace_free_cons in H as (_ & Hclose & Hname).
    rewrite string_app_cons. simpl. rewrite Hclose.
    assert ((acc ++ String c EmptyString) ++ name = acc ++ String c name)
      as Hacc by (by rewrite string_app_assoc).
    rewrite IH; [by rewrite Hacc | done | by rewrite Hacc].
Qed.

(** A named field is replaced by its keyword argument. *)
Lemma format_from_field (c : ascii) (name rest : string) (auto : nat)
    (args : list string) (kwargs : gmap string string) :
  brace_free (String c name) = true →
  format_from (String "{" (String c name ++ String "}" rest)) None auto
    args kwargs =
  match kwargs !! String c name with
  | Some v => rest' ← format_from rest None auto args kwargs; Ok (v ++ rest')
  | None => Raise KeyError
  end.
Proof.
  intros H. pose proof (brace_free_cons _ _ H) as (Hopen & _ & _).
  rewrite string_app_cons.
  change (format_from (String "{" (String c (name ++ String "}" rest))) None
            auto args kwargs)
    with (if Ascii.eqb c "{"
          then rest' ← format_from (name ++ String "}" rest) None auto args kwargs;
               Ok (String "{" rest')
          else format_from (String c (name ++ String "}" rest))
                 (Some EmptyString) auto args kwargs).
  rewrite Hopen, <- string_app_cons.
  by rewrite format_from_name.
Qed.

Lemma identifier_char_not_brace (c : ascii) :
  identifier_char c = true →
  Ascii.eqb c "{" = false ∧ Ascii.eqb c "}" = false.
Proof.
  destruct c as [[] [] [] [] [] [] [] []]; vm_compute; intros H;
    first [discriminate H | done].
Qed.

Lemma identifier_chars_brace_free (s : string) :
  all_chars identifier_char s = true → brace_free s = true.
Proof.
  induction s as [| c s IH]; [done |]. simpl.
  intros H. apply andb_true_iff in H as [Hc Hs].
  destruct (identifier_char_not_brace c Hc) as [-> ->].
  by rewrite (IH Hs).
Qed.

Lemma identifier_brace_free (s : string) :
  is_identifier s = true → brace_free s = true.
Proof.
  destruct s as [| c s]; [done |]. intros H.
  apply andb_true_iff in H as [Hc Hs].
  apply identifier_chars_brace_free.
  change (identifier_char c && all_chars identifier_char s = true).
  apply andb_true_iff. split; [| exact Hs].
  unfold identifier_char. by rewrite Hc.
Qed.

Lemma braced_app (pre x suf : string) :
  pre ++ String "{" (x ++ "}") ++ suf = pre ++ String "{" (x ++ String "}" suf).
Proof. by rewrite string_app_cons, string_app_assoc. Qed.

Section VerboseClientErrorRendering.

Variable str_of_container : value → string.

(** The template built from a dictionary is a format string in which
    [error_code], [operation_name] and [error_message] are the only open
    fields: formatted with these keywords (and any others) it gives the full
    message, as long as the string forms of the request id and of the table
    name contain no brace. *)
Theorem verbose_template_renders (d : gmap string value)
    (kwargs : gmap string string) (code op msg : string) :
  let request_id := py_str str_of_container (default VNone (d !! "request_id")) in
  let table_name := py_str str_of_container (default VNone (d !! "table_name")) in
  brace_free request_id = true →
  brace_free table_name = true →
  kwargs !! "error_code" = Some code →
  kwargs !! "operation_name" = Some op →
  kwargs !! "error_message" = Some msg →
  (template ← VerboseClientError_MSG_TEMPLATE str_of_container (VDict d);
   py_format template [] kwargs)
    = Ok ("An error occurred (" ++ code ++ ") on request (" ++ request_id ++
          ") on table (" ++ table_name ++ ") when calling the " ++ op ++
          " operation: " ++ msg).
Proof.
  intros request_id table_name Hrid Htn Hcode Hop Hmsg.
  rewrite MSG_TEMPLATE_dict. fold request_id table_name.
  change (py_format
            ("An error occurred (" ++
             String "{" ("error_code" ++ String "}"
               (") on request (" ++ request_id ++ ") on table (" ++ table_name ++
                ") when calling the " ++
                String "{" ("operation_name" ++ String "}"
                  (" operation: " ++
                   String "{" ("error_message" ++ String "}" EmptyString))))))
            [] kwargs = Ok ("An error occurred (" ++ code ++ ") on request (" ++
                            request_id ++ ") on table (" ++ table_name ++
                            ") when calling the " ++ op ++ " operation: " ++ msg)).
  unfold py_format.
  rewrite format_from_literal by reflexivity.
  rewrite format_from_field, Hcode by reflexivity.
  rewrite format_from_literal by reflexivity.
  rewrite format_from_literal by exact Hrid.
  rewrite format_from_literal by reflexivity.
  rewrite format_from_literal by exact Htn.
  rewrite format_from_literal by reflexivity.
  rewrite format_from_field, Hop by reflexivity.
  rewrite format_from_literal by reflexivity.
  rewrite format_from_field, Hmsg by reflexivity.
  simpl. by rewrite string_app_empty_r.
Qed.

(** The request id is put into the template as it is, braces included: a
    request id of the form [{name}], with [name] an identifier, becomes a
    keyword field of the template, and formatting raises KeyError when no
    keyword [name] is given. *)
Theorem verbose_template_brace_hazard (d : gmap string value)
    (kwargs : gmap string string) (name code : string) :
  d !! "request_id" = Some (VStr (String "{" (name ++ "}"))) →
  is_identifier name = true →
  kwargs !! "error_code" = Some code →
  kwargs !! name = None →
  (template ← VerboseClientError_MSG_TEMPLATE str_of_container (VDict d);
   py_format template [] kwargs) = Raise KeyError.
Proof.
  intros Hrid Hname Hcode Hmissing.
  pose proof (identifier_brace_free _ Hname) as Hfree.
  destruct name as [| c name]; [discriminate Hname |].
  rewrite MSG_TEMPLATE_dict, Hrid. simpl default. unfold py_str at 1.
  unfold documented_template. rewrite braced_app.
  change (py_format
            ("An error occurred (" ++
             String "{" ("error_code" ++ String "}"
               (") on request (" ++
                String "{" (String c name ++ String "}"
                  (") on table (" ++
                   py_str str_of_container (default VNone (d !! "table_name")) ++
                   ") when calling the {operation_name} operation: {error_message}")))))
            [] kwargs = Raise KeyError).
  unfold py_format.
  rewrite format_from_literal by reflexivity.
  rewrite format_from_field, Hcode by reflexivity.
  rewrite format_from_literal by reflexivity.
  rewrite format_from_field, Hmissing by exact Hfree.
  reflexivity.
Qed.

End VerboseClientErrorRendering.

Lemma verbose_template_renders_witness :
  let d : gmap string value :=
    {[ "request_id" := VStr "abc"; "table_name" := VStr "Users" ]} in
  let kwargs : gmap string string :=
    {[ "error_code" := "ConditionalCheckFailedException";
       "operation_name" := "PutItem";
       "error_message" := "The conditional request failed";
       "retry_info" := EmptyString ]} in
  brace_free "abc" = true ∧
  brace_free "Users" = true ∧
  kwargs !! "error_code" = Some "ConditionalCheckFailedException" ∧
  kwargs !! "operation_name" = Some "PutItem" ∧
  kwargs !! "error_message" = Some "The conditional request failed" ∧
  (template ← VerboseClientError_MSG_TEMPLATE (λ _, EmptyString) (VDict d);
   py_format template [] kwargs)
    = Ok ("An error occurred (ConditionalCheckFailedException) on request (abc) " ++
          "on table (Users) when calling the PutItem operation: " ++
          "The conditional request failed").
Proof.
  intros d kwargs.
  split_and!; [reflexivity | reflexivity | reflexivity | reflexivity
              | reflexivity |].
  exact (verbose_template_renders (λ _, EmptyString) d kwargs
           "ConditionalCheckFailedException" "PutItem"
           "The conditional request failed"
           eq_refl eq_refl eq_refl eq_refl eq_refl).
Defined.

Lemma verbose_template_brace_hazard_witness :
  let d : gmap string value :=
    {[ "request_id" := VStr "{id}"; "table_name" := VStr "Users" ]} in
  let kwargs : gmap string string :=
    {[ "error_code" := "ValidationException";
       "operation_name" := "PutItem";
       "error_message" := "bad request" ]} in
  d !! "request_id" = Some (VStr "{id}") ∧
  is_identifier "id" = true ∧
  kwargs !! "error_code" = Some "ValidationException" ∧
  kwargs !! "id" = None ∧
  (template ← VerboseClientError_MSG_TEMPLATE (λ _, EmptyString) (VDict d);
   py_format template [] kwargs) = Raise KeyError.
Proof.
  intros d kwargs.
  split_and!; [reflexivity | reflexivity | reflexivity | reflexivity |].
  exact (verbose_template_brace_hazard (λ _, EmptyString) d kwargs
           "id" "ValidationException" eq_refl eq_refl eq_refl eq_refl).
Defined.
